(** * arcade.gl: the OpenGL context and shader program wrappers

    A shallow embedding of [arcade/gl/context.py] and [arcade/gl/program.py].
    The wrapped native library (pyglet's [gl] module) and the [Uniform]
    accessors of [arcade/gl/uniform.py] are outside the embedded code: every
    call into them is recorded, in order, in a trace, and the values they
    hand back come from an oracle that sees the calls issued so far.  A call
    into the library is taken to return.

    Python integers are [Z], Python floats are binary64 floats that the code
    only stores and passes on, [str] and [bytes] are byte strings ([encode]
    and [decode] are the identity on them), a [set] of flags is a [gset Z],
    a [dict] keyed by strings is a [gmap string _], and an object that other
    objects keep a reference to is named by its address. *)

From Stdlib Require Import ZArith Ascii String List PrimFloat DecimalString.
From stdpp Require Import gmap strings list.

Local Open Scope string_scope.
Local Open Scope Z_scope.
Local Open Scope list_scope.

(** ** Python outcomes *)

Inductive exn : Type :=
  | ShaderException (msg : string)
  | KeyError (key : Z)
  | AttributeError (name : string)
  | TypeError
  | ValueError
  | ZeroDivisionError.

Inductive Outcome (A : Type) : Type :=
  | Ok (a : A)
  | Raise (e : exn).
Arguments Ok {A} a.
Arguments Raise {A} e.

(** Object identities ([id(obj)]). *)
Definition addr := positive.

(** ** ContextStats *)

Module ContextStats.

(** Each counter is the tuple [(created, freed)]. *)
Record t : Type := mk {
  warn_threshold : Z;
  texture : Z * Z;
  framebuffer : Z * Z;
  buffer : Z * Z;
  program : Z * Z;
  vertex_array : Z * Z;
  geometry : Z * Z
}.

(** The record [LOG.debug] receives in [incr]:
    [(key, warn_threshold, created, freed, created - freed)]. *)
Definition LogRecord : Type := string * Z * Z * Z * Z.

Definition __init__ (warn_threshold : Z) : t :=
  mk warn_threshold (0, 0) (0, 0) (0, 0) (0, 0) (0, 0) (0, 0).

(** [created, freed = getattr(self, key)]: the six counters unpack; the
    integer [warn_threshold] and the bound methods do not ([TypeError]);
    a name the object does not have is an [AttributeError]. *)
Definition getattr (self : t) (key : string) : Outcome (Z * Z) :=
  if String.eqb key "texture" then Ok (texture self)
  else if String.eqb key "framebuffer" then Ok (framebuffer self)
  else if String.eqb key "buffer" then Ok (buffer self)
  else if String.eqb key "program" then Ok (program self)
  else if String.eqb key "vertex_array" then Ok (vertex_array self)
  else if String.eqb key "geometry" then Ok (geometry self)
  else if String.eqb key "warn_threshold" then Raise TypeError
  else if String.eqb key "incr" then Raise TypeError
  else if String.eqb key "decr" then Raise TypeError
  else Raise (AttributeError key).

(** [setattr(self, key, value)], reached only with a key [getattr]
    accepted. *)
Definition setattr (self : t) (key : string) (value : Z * Z) : t :=
  if String.eqb key "texture" then
    mk (warn_threshold self) value (framebuffer self) (buffer self)
       (program self) (vertex_array self) (geometry self)
  else if String.eqb key "framebuffer" then
    mk (warn_threshold self) (texture self) value (buffer self)
       (program self) (vertex_array self) (geometry self)
  else if String.eqb key "buffer" then
    mk (warn_threshold self) (texture self) (framebuffer self) value
       (program self) (vertex_array self) (geometry self)
  else if String.eqb key "program" then
    mk (warn_threshold self) (texture self) (framebuffer self) (buffer self)
       value (vertex_array self) (geometry self)
  else if String.eqb key "vertex_array" then
    mk (warn_threshold self) (texture self) (framebuffer self) (buffer self)
       (program self) value (geometry self)
  else if String.eqb key "geometry" then
    mk (warn_threshold self) (texture self) (framebuffer self) (buffer self)
       (program self) (vertex_array self) value
  else self.

(** [incr] and [decr] return the outcome of the call, the object after it
    and the records handed to the logger.  In [incr] the counter is stored
    before [created % self.warn_threshold] is evaluated, so a zero
    threshold raises with the counter already advanced.  Python's [%]
    takes the sign of the divisor, as [Z.modulo] does. *)
Definition incr (self : t) (key : string)
  : Outcome unit * t * list LogRecord :=
  match getattr self key with
  | Raise e => (Raise e, self, [])
  | Ok (created, freed) =>
      let self' := setattr self key (created + 1, freed) in
      if warn_threshold self' =? 0 then (Raise ZeroDivisionError, self', [])
      else if (created mod warn_threshold self' =? 0) && (0 <? created) then
        (Ok tt, self',
         [(key, warn_threshold self', created, freed, created - freed)])
      else (Ok tt, self', [])
  end.

Definition decr (self : t) (key : string)
  : Outcome unit * t * list LogRecord :=
  match getattr self key with
  | Raise e => (Raise e, self, [])
  | Ok (created, freed) => (Ok tt, setattr self key (created, freed + 1), [])
  end.

(** The names of the resource counters. *)
Definition resource_keys : list string :=
  ["texture"; "framebuffer"; "buffer"; "program"; "vertex_array"; "geometry"].

Definition created (self : t) (key : string) : Outcome Z :=
  match getattr self key with Ok c => Ok (fst c) | Raise e => Raise e end.
Definition freed (self : t) (key : string) : Outcome Z :=
  match getattr self key with Ok c => Ok (snd c) | Raise e => Raise e end.

End ContextStats.

(** ** The native library *)

Module gl.

Definition GL_NO_ERROR : Z := 0.
Definition GL_INVALID_ENUM : Z := 0x0500.
Definition GL_INVALID_VALUE : Z := 0x0501.
Definition GL_INVALID_OPERATION : Z := 0x0502.
Definition GL_STACK_OVERFLOW : Z := 0x0503.
Definition GL_STACK_UNDERFLOW : Z := 0x0504.
Definition GL_OUT_OF_MEMORY : Z := 0x0505.
Definition GL_INVALID_FRAMEBUFFER_OPERATION : Z := 0x0506.
Definition GL_BLEND : Z := 0x0BE2.
Definition GL_DEPTH_TEST : Z := 0x0B71.
Definition GL_CULL_FACE : Z := 0x0B44.
Definition GL_PROGRAM_POINT_SIZE : Z := 0x8642.
Definition GL_FRAGMENT_SHADER : Z := 0x8B30.
Definition GL_VERTEX_SHADER : Z := 0x8B31.
Definition GL_GEOMETRY_SHADER : Z := 0x8DD9.
Definition GL_MINOR_VERSION : Z := 33308.
Definition GL_MAJOR_VERSION : Z := 33307.
Definition GL_VENDOR : Z := 7936.
Definition GL_RENDERER : Z := 7937.
Definition GL_SAMPLE_BUFFERS : Z := 32936.
Definition GL_SUBPIXEL_BITS : Z := 3408.
Definition GL_CONTEXT_PROFILE_MASK : Z := 37158.
Definition GL_UNIFORM_BUFFER_OFFSET_ALIGNMENT : Z := 35380.
Definition GL_MAX_ARRAY_TEXTURE_LAYERS : Z := 35071.
Definition GL_MAX_3D_TEXTURE_SIZE : Z := 32883.
Definition GL_MAX_COLOR_ATTACHMENTS : Z := 36063.
Definition GL_MAX_COLOR_TEXTURE_SAMPLES : Z := 37134.
Definition GL_MAX_COMBINED_FRAGMENT_UNIFORM_COMPONENTS : Z := 35379.
Definition GL_MAX_COMBINED_GEOMETRY_UNIFORM_COMPONENTS : Z := 35378.
Definition GL_MAX_COMBINED_TEXTURE_IMAGE_UNITS : Z := 35661.
Definition GL_MAX_COMBINED_UNIFORM_BLOCKS : Z := 35374.
Definition GL_MAX_COMBINED_VERTEX_UNIFORM_COMPONENTS : Z := 35377.
Definition GL_MAX_CUBE_MAP_TEXTURE_SIZE : Z := 34076.
Definition GL_MAX_DEPTH_TEXTURE_SAMPLES : Z := 37135.
Definition GL_MAX_DRAW_BUFFERS : Z := 34852.
Definition GL_MAX_DUAL_SOURCE_DRAW_BUFFERS : Z := 35068.
Definition GL_MAX_ELEMENTS_INDICES : Z := 33001.
Definition GL_MAX_ELEMENTS_VERTICES : Z := 33000.
Definition GL_MAX_FRAGMENT_INPUT_COMPONENTS : Z := 37157.
Definition GL_MAX_FRAGMENT_UNIFORM_COMPONENTS : Z := 35657.
Definition GL_MAX_FRAGMENT_UNIFORM_VECTORS : Z := 36349.
Definition GL_MAX_FRAGMENT_UNIFORM_BLOCKS : Z := 35373.
Definition GL_MAX_GEOMETRY_INPUT_COMPONENTS : Z := 37155.
Definition GL_MAX_GEOMETRY_OUTPUT_COMPONENTS : Z := 37156.
Definition GL_MAX_GEOMETRY_TEXTURE_IMAGE_UNITS : Z := 35881.
Definition GL_MAX_GEOMETRY_UNIFORM_BLOCKS : Z := 35372.
Definition GL_MAX_GEOMETRY_UNIFORM_COMPONENTS : Z := 36319.
Definition GL_MAX_INTEGER_SAMPLES : Z := 37136.
Definition GL_MAX_SAMPLES : Z := 36183.
Definition GL_MAX_RECTANGLE_TEXTURE_SIZE : Z := 34040.
Definition GL_MAX_RENDERBUFFER_SIZE : Z := 34024.
Definition GL_MAX_SAMPLE_MASK_WORDS : Z := 36441.
Definition GL_MAX_TEXTURE_BUFFER_SIZE : Z := 35883.
Definition GL_MAX_UNIFORM_BUFFER_BINDINGS : Z := 35375.
Definition GL_MAX_TEXTURE_SIZE : Z := 3379.
Definition GL_MAX_UNIFORM_BLOCK_SIZE : Z := 35376.
Definition GL_MAX_VARYING_VECTORS : Z := 36348.
Definition GL_MAX_VERTEX_ATTRIBS : Z := 34921.
Definition GL_MAX_VERTEX_TEXTURE_IMAGE_UNITS : Z := 35660.
Definition GL_MAX_VERTEX_UNIFORM_COMPONENTS : Z := 35658.
Definition GL_MAX_VERTEX_UNIFORM_VECTORS : Z := 36347.
Definition GL_MAX_VERTEX_OUTPUT_COMPONENTS : Z := 37154.
Definition GL_MAX_VERTEX_UNIFORM_BLOCKS : Z := 35371.

End gl.

(** A value a uniform holds: a number or a tuple of numbers. *)
Inductive PyNumber : Type :=
  | PyInt (n : Z)
  | PyFloat (x : float).

Inductive PyValue : Type :=
  | PyScalar (x : PyNumber)
  | PyTuple (xs : list PyNumber).

(** What [Uniform(program_id, location, name, data_type, array_length)]
    keeps.  The class lives in [arcade/gl/uniform.py]; its constructor is
    taken to store its arguments, and its [getter] and [setter] are calls
    out of the embedded code. *)
Record Uniform : Type := mkUniform {
  u_program_id : Z;
  u_location : Z;
  u_name : string;
  u_data_type : Z;
  u_array_length : Z
}.

(** The calls that leave the embedded code, with the arguments the code
    passes.  Output parameters ([c_int] cells, string buffers) do not appear:
    what the callee leaves in them is the oracle's answer to the call. *)
Inductive Event : Type :=
  | glEnable (cap : Z)
  | glDisable (cap : Z)
  | glBlendFunc (sfactor dfactor : Z)
  | glPointSize (size : float)
  | glUseProgram (program : Z)
  | glGetError
  | glGetIntegerv (pname : Z)
  | glGetString (name : Z)
  | glCreateShader (shader_type : Z)
  | glShaderSource (shader count : Z) (source : string) (length : Z)
  | glCompileShader (shader : Z)
  | glGetShaderiv (shader pname : Z)
  | glGetShaderInfoLog (shader bufSize : Z)
  | glLinkProgram (program : Z)
  | glGetProgramiv (program pname : Z)
  | glGetProgramInfoLog (program bufSize : Z)
  | glGetActiveUniform (program index bufSize : Z)
  | glGetUniformLocation (program : Z) (name : string)
  | glDetachShader (program shader : Z)
  | glDeleteProgram (program : Z)
  | Uniform_getter (u : Uniform)
  | Uniform_setter (u : Uniform) (value : PyValue)
  | LOG_debug (record : ContextStats.LogRecord)
  | warnings_warn (message : string).

(** The oracle.  Each answer depends on the calls issued before ([list
    Event], oldest first) and on the call itself.  [int_result] is the
    integer a call returns or leaves in its [c_int]/[GLint]/[GLenum] cell (a
    cell the callee does not write keeps its initial 0); [str_result] is the
    [.value] of the string buffer a call fills; [ptr_result] is the C string
    a call returns, [None] for NULL; [uniform_result] is the name, type and
    size [glGetActiveUniform] reports; [value_result] is what a uniform's
    getter returns. *)
Record Driver : Type := mkDriver {
  int_result : list Event → Event → Z;
  str_result : list Event → Event → string;
  ptr_result : list Event → Event → option string;
  uniform_result : list Event → Event → string * Z * Z;
  value_result : list Event → Event → PyValue
}.

(** ** Objects and the world *)

Record LimitsObj : Type := mkLimits {
  lim_ctx : addr;
  MINOR_VERSION : Z;
  MAJOR_VERSION : Z;
  VENDOR : string;
  RENDERER : string;
  (** the remaining attributes, all integers, by name *)
  lim_int : gmap string Z
}.

Record ContextObj : Type := mkContext {
  _window_ref : addr;
  limits : LimitsObj;
  _gl_version : Z * Z;
  active_program : option addr;
  active_framebuffer : addr;
  stats : ContextStats.t;
  _blend_func : Z * Z;
  _point_size : float;
  _flags : gset Z
}.

(** A program: its identity and the slots the embedded methods read.  No
    method changes them once the constructor is done. *)
Record ProgramObj : Type := mkProgram {
  prog_id : addr;
  _ctx : addr;
  _glo : Z;
  _uniforms : gmap string Uniform
}.

Record World : Type := mkWorld {
  driver : Driver;
  (** the calls issued so far, oldest first *)
  trace : list Event;
  (** [pyglet.gl.current_context], [None] once the library has shut down *)
  current_context : option addr;
  (** the class attribute [Context.active] *)
  Context_active : option addr;
  (** the [Context] objects, by identity *)
  contexts : gmap addr ContextObj
}.

(** ** Computations: state and exceptions *)

Definition M (A : Type) : Type := World → Outcome A * World.

#[global] Instance M_ret : MRet M := λ A a w, (Ok a, w).

#[global] Instance M_bind : MBind M := λ A B k m w,
  match m w with
  | (Ok a, w') => k a w'
  | (Raise e, w') => (Raise e, w')
  end.

Definition raise {A : Type} (e : exn) : M A := λ w, (Raise e, w).

(** [for x in xs: body(x)] *)
Fixpoint for_each {A : Type} (xs : list A) (body : A → M unit) : M unit :=
  match xs with
  | [] => mret tt
  | x :: xs' => body x;; for_each xs' body
  end.



Definition emit (e : Event) (w : World) : World :=
  mkWorld (driver w) (trace w ++ [e]) (current_context w) (Context_active w)
    (contexts w).

Definition call (e : Event) : M unit := λ w, (Ok tt, emit e w).
Definition call_int (e : Event) : M Z :=
  λ w, (Ok (int_result (driver w) (trace w) e), emit e w).
Definition call_ptr (e : Event) : M (option string) :=
  λ w, (Ok (ptr_result (driver w) (trace w) e), emit e w).
Definition call_value (e : Event) : M PyValue :=
  λ w, (Ok (value_result (driver w) (trace w) e), emit e w).

(** Reading an attribute of the context object at [self], and writing the
    object back. *)
Definition load (self : addr) (attribute : string) : M ContextObj := λ w,
  match contexts w !! self with
  | Some c => (Ok c, w)
  | None => (Raise (AttributeError attribute), w)
  end.

Definition store (self : addr) (c : ContextObj) : M unit := λ w,
  (Ok tt,
   mkWorld (driver w) (trace w) (current_context w) (Context_active w)
     (<[self := c]> (contexts w))).

Definition with_flags (flags : gset Z) (c : ContextObj) : ContextObj :=
  mkContext (_window_ref c) (limits c) (_gl_version c) (active_program c)
    (active_framebuffer c) (stats c) (_blend_func c) (_point_size c) flags.
Definition with_blend_func (value : Z * Z) (c : ContextObj) : ContextObj :=
  mkContext (_window_ref c) (limits c) (_gl_version c) (active_program c)
    (active_framebuffer c) (stats c) value (_point_size c) (_flags c).
Definition with_point_size (value : float) (c : ContextObj) : ContextObj :=
  mkContext (_window_ref c) (limits c) (_gl_version c) (active_program c)
    (active_framebuffer c) (stats c) (_blend_func c) value (_flags c).
Definition with_active_program (p : option addr) (c : ContextObj)
  : ContextObj :=
  mkContext (_window_ref c) (limits c) (_gl_version c) p
    (active_framebuffer c) (stats c) (_blend_func c) (_point_size c) (_flags c).
Definition with_stats (s : ContextStats.t) (c : ContextObj) : ContextObj :=
  mkContext (_window_ref c) (limits c) (_gl_version c) (active_program c)
    (active_framebuffer c) s (_blend_func c) (_point_size c) (_flags c).

(** [ctx.stats.<method>(key)]: the counters of the context at [ctx] are
    replaced by what the method leaves, its log records go out, and its
    exception, if any, propagates. *)
Definition on_stats (ctx : addr)
    (method : ContextStats.t →
              Outcome unit * ContextStats.t * list ContextStats.LogRecord)
  : M unit :=
  c ← load ctx "stats";
  let '(outcome, stats', records) := method (stats c) in
  store ctx (with_stats stats' c);;
  for_each records (λ r, call (LOG_debug r));;
  match outcome with
  | Ok _ => mret tt
  | Raise e => raise e
  end.

(** ** Context *)

Module Context.

Definition BLEND : Z := gl.GL_BLEND.
Definition DEPTH_TEST : Z := gl.GL_DEPTH_TEST.
Definition CULL_FACE : Z := gl.GL_CULL_FACE.
Definition PROGRAM_POINT_SIZE : Z := gl.GL_PROGRAM_POINT_SIZE.

Definition BLEND_DEFAULT : Z * Z := (0x0302, 0x0303).
Definition BLEND_ADDITIVE : Z * Z := (0x0001, 0x0001).
Definition BLEND_PREMULTIPLIED_ALPHA : Z * Z := (0x0302, 0x0001).

Definition _errors : gmap Z string :=
  list_to_map
    [(gl.GL_INVALID_ENUM, "GL_INVALID_ENUM");
     (gl.GL_INVALID_VALUE, "GL_INVALID_VALUE");
     (gl.GL_INVALID_OPERATION, "GL_INVALID_OPERATION");
     (gl.GL_INVALID_FRAMEBUFFER_OPERATION, "GL_INVALID_FRAMEBUFFER_OPERATION");
     (gl.GL_OUT_OF_MEMORY, "GL_OUT_OF_MEMORY");
     (gl.GL_STACK_UNDERFLOW, "GL_STACK_UNDERFLOW");
     (gl.GL_STACK_OVERFLOW, "GL_STACK_OVERFLOW")].

Definition gl_version (self : addr) : M (Z * Z) :=
  c ← load self "_gl_version";
  mret (_gl_version c).

(** The [error] property reads the class attribute [_errors] only, so it
    also works on an object whose constructor is still running. *)
Definition error (self : addr) : M (option string) :=
  err ← call_int glGetError;
  if err =? gl.GL_NO_ERROR then mret None
  else mret (Some (default "GL_UNKNOWN_ERROR" (_errors !! err))).

Definition activate (ctx : addr) : M unit := λ w,
  (Ok tt,
   mkWorld (driver w) (trace w) (current_context w) (Some ctx) (contexts w)).

Definition enable (self : addr) (args : list Z) : M unit :=
  c ← load self "_flags";
  store self (with_flags (_flags c ∪ list_to_set args) c);;
  for_each args (λ flag, call (glEnable flag)).

Definition enable_only (self : addr) (args : list Z) : M unit :=
  c ← load self "_flags";
  let flags : gset Z := list_to_set args in
  store self (with_flags flags c);;
  (if bool_decide (BLEND ∈ flags) then call (glEnable BLEND)
   else call (glDisable BLEND));;
  (if bool_decide (DEPTH_TEST ∈ flags) then call (glEnable DEPTH_TEST)
   else call (glDisable DEPTH_TEST));;
  (if bool_decide (CULL_FACE ∈ flags) then call (glEnable CULL_FACE)
   else call (glDisable CULL_FACE));;
  (if bool_decide (PROGRAM_POINT_SIZE ∈ flags)
   then call (glEnable PROGRAM_POINT_SIZE)
   else call (glDisable PROGRAM_POINT_SIZE)).

Definition disable (self : addr) (args : list Z) : M unit :=
  c ← load self "_flags";
  store self (with_flags (_flags c ∖ list_to_set args) c);;
  for_each args (λ flag, call (glDisable flag)).

Definition is_enabled (self : addr) (flag : Z) : M bool :=
  c ← load self "_flags";
  mret (bool_decide (flag ∈ _flags c)).

Definition blend_func (self : addr) : M (Z * Z) :=
  c ← load self "_blend_func";
  mret (_blend_func c).

Definition blend_func_setter (self : addr) (value : Z * Z) : M unit :=
  c ← load self "_blend_func";
  store self (with_blend_func value c);;
  call (glBlendFunc value.1 value.2).

Definition point_size (self : addr) : M float :=
  c ← load self "_point_size";
  mret (_point_size c).

(** The driver call comes first and reads the attribute as it is then. *)
Definition point_size_setter (self : addr) (value : float) : M unit :=
  c ← load self "_point_size";
  call (glPointSize (_point_size c));;
  store self (with_point_size value c).

End Context.

(** ** Limits *)

Module Limits.

Definition get (enum : Z) : M Z := call_int (glGetIntegerv enum).

(** [cast(gl.glGetString(enum), c_char_p).value.decode()]: on a NULL
    pointer [.value] is [None], which has no [decode]. *)
Definition get_str (enum : Z) : M string :=
  p ← call_ptr (glGetString enum);
  match p with
  | Some s => mret s
  | None => raise (AttributeError "decode")
  end.

(** The integer limits queried after [RENDERER], in the order of the
    assignments; an attribute assigned again keeps the last answer. *)
Definition int_limits : list (string * Z) :=
  [("SAMPLE_BUFFERS", gl.GL_SAMPLE_BUFFERS);
   ("SUBPIXEL_BITS", gl.GL_SUBPIXEL_BITS);
   ("CONTEXT_PROFILE_MASK", gl.GL_CONTEXT_PROFILE_MASK);
   ("UNIFORM_BUFFER_OFFSET_ALIGNMENT", gl.GL_UNIFORM_BUFFER_OFFSET_ALIGNMENT);
   ("MAX_ARRAY_TEXTURE_LAYERS", gl.GL_MAX_ARRAY_TEXTURE_LAYERS);
   ("MAX_3D_TEXTURE_SIZE", gl.GL_MAX_3D_TEXTURE_SIZE);
   ("MAX_COLOR_ATTACHMENTS", gl.GL_MAX_COLOR_ATTACHMENTS);
   ("MAX_COLOR_TEXTURE_SAMPLES", gl.GL_MAX_COLOR_TEXTURE_SAMPLES);
   ("MAX_COMBINED_FRAGMENT_UNIFORM_COMPONENTS", gl.GL_MAX_COMBINED_FRAGMENT_UNIFORM_COMPONENTS);
   ("MAX_COMBINED_GEOMETRY_UNIFORM_COMPONENTS", gl.GL_MAX_COMBINED_GEOMETRY_UNIFORM_COMPONENTS);
   ("MAX_COMBINED_TEXTURE_IMAGE_UNITS", gl.GL_MAX_COMBINED_TEXTURE_IMAGE_UNITS);
   ("MAX_COMBINED_UNIFORM_BLOCKS", gl.GL_MAX_COMBINED_UNIFORM_BLOCKS);
   ("MAX_COMBINED_VERTEX_UNIFORM_COMPONENTS", gl.GL_MAX_COMBINED_VERTEX_UNIFORM_COMPONENTS);
   ("MAX_CUBE_MAP_TEXTURE_SIZE", gl.GL_MAX_CUBE_MAP_TEXTURE_SIZE);
   ("MAX_DEPTH_TEXTURE_SAMPLES", gl.GL_MAX_DEPTH_TEXTURE_SAMPLES);
   ("MAX_DRAW_BUFFERS", gl.GL_MAX_DRAW_BUFFERS);
   ("MAX_DUAL_SOURCE_DRAW_BUFFERS", gl.GL_MAX_DUAL_SOURCE_DRAW_BUFFERS);
   ("MAX_ELEMENTS_INDICES", gl.GL_MAX_ELEMENTS_INDICES);
   ("MAX_ELEMENTS_VERTICES", gl.GL_MAX_ELEMENTS_VERTICES);
   ("MAX_FRAGMENT_INPUT_COMPONENTS", gl.GL_MAX_FRAGMENT_INPUT_COMPONENTS);
   ("MAX_FRAGMENT_UNIFORM_COMPONENTS", gl.GL_MAX_FRAGMENT_UNIFORM_COMPONENTS);
   ("MAX_FRAGMENT_UNIFORM_VECTORS", gl.GL_MAX_FRAGMENT_UNIFORM_VECTORS);
   ("MAX_FRAGMENT_UNIFORM_BLOCKS", gl.GL_MAX_FRAGMENT_UNIFORM_BLOCKS);
   ("MAX_GEOMETRY_INPUT_COMPONENTS", gl.GL_MAX_GEOMETRY_INPUT_COMPONENTS);
   ("MAX_GEOMETRY_OUTPUT_COMPONENTS", gl.GL_MAX_GEOMETRY_OUTPUT_COMPONENTS);
   ("MAX_GEOMETRY_TEXTURE_IMAGE_UNITS", gl.GL_MAX_GEOMETRY_TEXTURE_IMAGE_UNITS);
   ("MAX_GEOMETRY_UNIFORM_BLOCKS", gl.GL_MAX_GEOMETRY_UNIFORM_BLOCKS);
   ("MAX_GEOMETRY_UNIFORM_COMPONENTS", gl.GL_MAX_GEOMETRY_UNIFORM_COMPONENTS);
   ("MAX_INTEGER_SAMPLES", gl.GL_MAX_INTEGER_SAMPLES);
   ("MAX_SAMPLES", gl.GL_MAX_SAMPLES);
   ("MAX_RECTANGLE_TEXTURE_SIZE", gl.GL_MAX_RECTANGLE_TEXTURE_SIZE);
   ("MAX_RENDERBUFFER_SIZE", gl.GL_MAX_RENDERBUFFER_SIZE);
   ("MAX_SAMPLE_MASK_WORDS", gl.GL_MAX_SAMPLE_MASK_WORDS);
   ("MAX_TEXTURE_BUFFER_SIZE", gl.GL_MAX_TEXTURE_BUFFER_SIZE);
   ("MAX_UNIFORM_BUFFER_BINDINGS", gl.GL_MAX_UNIFORM_BUFFER_BINDINGS);
   ("MAX_UNIFORM_BUFFER_BINDINGS", gl.GL_MAX_UNIFORM_BUFFER_BINDINGS);
   ("MAX_TEXTURE_SIZE", gl.GL_MAX_TEXTURE_SIZE);
   ("MAX_UNIFORM_BUFFER_BINDINGS", gl.GL_MAX_UNIFORM_BUFFER_BINDINGS);
   ("MAX_UNIFORM_BLOCK_SIZE", gl.GL_MAX_UNIFORM_BLOCK_SIZE);
   ("MAX_VARYING_VECTORS", gl.GL_MAX_VARYING_VECTORS);
   ("MAX_VERTEX_ATTRIBS", gl.GL_MAX_VERTEX_ATTRIBS);
   ("MAX_VERTEX_TEXTURE_IMAGE_UNITS", gl.GL_MAX_VERTEX_TEXTURE_IMAGE_UNITS);
   ("MAX_VERTEX_UNIFORM_COMPONENTS", gl.GL_MAX_VERTEX_UNIFORM_COMPONENTS);
   ("MAX_VERTEX_UNIFORM_VECTORS", gl.GL_MAX_VERTEX_UNIFORM_VECTORS);
   ("MAX_VERTEX_OUTPUT_COMPONENTS", gl.GL_MAX_VERTEX_OUTPUT_COMPONENTS);
   ("MAX_VERTEX_UNIFORM_BLOCKS", gl.GL_MAX_VERTEX_UNIFORM_BLOCKS)].

Fixpoint query_all (table : list (string * Z)) (attrs : gmap string Z)
  : M (gmap string Z) :=
  match table with
  | [] => mret attrs
  | (name, enum) :: rest => v ← get enum; query_all rest (<[name := v]> attrs)
  end.

Definition warning : string :=
  "Error happened while querying of limits. Moving on ..".

Definition __init__ (ctx : addr) : M LimitsObj :=
  minor ← get gl.GL_MINOR_VERSION;
  major ← get gl.GL_MAJOR_VERSION;
  vendor ← get_str gl.GL_VENDOR;
  renderer ← get_str gl.GL_RENDERER;
  ints ← query_all int_limits ∅;
  err ← Context.error ctx;
  match err with
  | Some (String _ _) => call (warnings_warn warning)
  | _ => mret tt
  end;;
  mret (mkLimits ctx minor major vendor renderer ints).

End Limits.

(** [Context.__init__(self, window)].  The attributes are written in one
    step at the end; [Context.active] is set before that, as in the code,
    where it already refers to the object under construction. *)
Definition Context__init__ (self window : addr) : M unit :=
  limits ← Limits.__init__ self;
  let gl_version := (MAJOR_VERSION limits, MINOR_VERSION limits) in
  Context.activate self;;
  store self
    (mkContext window limits gl_version None window
       (ContextStats.__init__ 1000) Context.BLEND_DEFAULT 1%float ∅).

(** ** Strings *)







(** ** Program *)

Module Program.

Definition not_found (name : string) : exn :=
  ShaderException ("Uniform with the name `" +:+ name +:+ "` was not found.").

(** [self._ctx.active_program != self] compares object identities. *)
Definition is_active (self : ProgramObj) (c : ContextObj) : bool :=
  bool_decide (active_program c = Some (prog_id self)).

(** [_delete(ctx, shaders_id, prog_id)], the finalizer of a program. *)
Definition _delete (ctx : addr) (shaders_id : list Z) (prog_id : Z) : M unit :=
  λ w,
    match current_context w with
    | None => (Ok tt, w)
    | Some _ =>
        (for_each shaders_id (λ shader_id,
                                call (glDetachShader prog_id shader_id));;
         call (glDeleteProgram prog_id);;
         on_stats ctx (λ s, ContextStats.decr s "program")) w
    end.

Definition use (self : ProgramObj) : M unit :=
  c ← load (_ctx self) "active_program";
  if negb (is_active self c) then
    call (glUseProgram (_glo self));;
    store (_ctx self) (with_active_program (Some (prog_id self)) c)
  else mret tt.

Definition __getitem__ (self : ProgramObj) (item : string) : M PyValue :=
  match _uniforms self !! item with
  | None => raise (not_found item)
  | Some uniform => call_value (Uniform_getter uniform)
  end.

Definition __setitem__ (self : ProgramObj) (key : string) (value : PyValue)
  : M unit :=
  c ← load (_ctx self) "active_program";
  (if negb (is_active self c) then use self else mret tt);;
  match _uniforms self !! key with
  | None => raise (not_found key)
  | Some uniform => call (Uniform_setter uniform value)
  end.







Section Shaders.

(** [SHADER_TYPE_NAMES] of [arcade/gl/types.py]: the printed name of each
    shader type. *)
Variable SHADER_TYPE_NAMES : gmap Z string.


End Shaders.


End Program.

(** ** Sample worlds *)

(** A driver that answers 0, empty strings and non-NULL pointers. *)
Definition quiet_driver : Driver :=
  mkDriver (λ _ _, 0) (λ _ _, "") (λ _ _, Some "") (λ _ _, ("", 0, 0))
    (λ _ _, PyScalar (PyInt 0)).

Definition empty_world : World := mkWorld quiet_driver [] None None ∅.

(** A context object as the constructor leaves it, without integer limits. *)
Definition fresh_context : ContextObj :=
  mkContext 2%positive (mkLimits 1%positive 3 3 "" "" ∅) (3, 3) None
    2%positive (ContextStats.__init__ 1000) Context.BLEND_DEFAULT 1%float ∅.

Definition one_context_world : World :=
  mkWorld quiet_driver [] (Some 1%positive) (Some 1%positive)
    {[ 1%positive := fresh_context ]}.

(** A program of that context with one uniform. *)
Definition sample_uniform : Uniform := mkUniform 7 0 "color" 0x8B52 1.

Definition sample_program : ProgramObj :=
  mkProgram 5%positive 1%positive 7 {[ "color" := sample_uniform ]}.

(** ** Vocabulary of the properties *)

(** The flags [enable_only] tells the driver about, in the order of its
    four branches. *)
Definition known_flags : list Z :=
  [Context.BLEND; Context.DEPTH_TEST; Context.CULL_FACE;
   Context.PROGRAM_POINT_SIZE].

(** The world [w] after the further calls [new]. *)
Definition extend (w : World) (new : list Event) : World :=
  mkWorld (driver w) (trace w ++ new) (current_context w) (Context_active w)
    (contexts w).

(** Calls that only read from the driver or warn. *)
Definition read_only (e : Event) : bool :=
  match e with
  | glGetError | glGetIntegerv _ | glGetString _ | warnings_warn _ => true
  | _ => false
  end.

(** What the driver answers to the constructor's queries for the minor and
    major version, the vendor and the renderer, asked in this order. *)
Definition minor_answer (w : World) : Z :=
  int_result (driver w) (trace w) (glGetIntegerv gl.GL_MINOR_VERSION).
Definition major_answer (w : World) : Z :=
  int_result (driver w) (trace w ++ [glGetIntegerv gl.GL_MINOR_VERSION])
    (glGetIntegerv gl.GL_MAJOR_VERSION).
Definition vendor_answer (w : World) : option string :=
  ptr_result (driver w)
    (trace w ++ [glGetIntegerv gl.GL_MINOR_VERSION;
                 glGetIntegerv gl.GL_MAJOR_VERSION])
    (glGetString gl.GL_VENDOR).
Definition renderer_answer (w : World) : option string :=
  ptr_result (driver w)
    (trace w ++ [glGetIntegerv gl.GL_MINOR_VERSION;
                 glGetIntegerv gl.GL_MAJOR_VERSION;
                 glGetString gl.GL_VENDOR])
    (glGetString gl.GL_RENDERER).

(** Every attribute the table names is in [ints], with an answer the driver
    of [w] gave to [glGetIntegerv] for a constant the table lists with that
    attribute. *)
Definition answers_of (w : World) (table : list (string * Z))
    (ints : gmap string Z) : Prop :=
  ∀ name, name ∈ table.*1 →
    ∃ enum h, (name, enum) ∈ table
              ∧ ints !! name
                = Some (int_result (driver w) h (glGetIntegerv enum)).

(** The object [Context.__init__] leaves at [self]. *)
Definition constructed (self window : addr) (w : World) (vendor renderer : string)
    (ints : gmap string Z) : ContextObj :=
  mkContext window
    (mkLimits self (minor_answer w) (major_answer w) vendor renderer ints)
    (major_answer w, minor_answer w) None window (ContextStats.__init__ 1000)
    Context.BLEND_DEFAULT 1%float ∅.









(** The capabilities switched on in the driver after the calls [events],
    starting from the set [on]: [glEnable] switches one on, [glDisable]
    switches one off, no other call touches them. *)
Definition driver_flags (events : list Event) (on : gset Z) : gset Z :=
  foldl (λ s e, match e with
                | glEnable cap => s ∪ {[cap]}
                | glDisable cap => s ∖ {[cap]}
                | _ => s
                end) on events.


(** A sequence of calls on the counters of a context. *)
Inductive StatsCall : Type :=
  | Incr (key : string)
  | Decr (key : string).

Definition call_key (c : StatsCall) : string :=
  match c with Incr key | Decr key => key end.

Definition run_call (self : ContextStats.t) (c : StatsCall)
  : Outcome unit * ContextStats.t * list ContextStats.LogRecord :=
  match c with
  | Incr key => ContextStats.incr self key
  | Decr key => ContextStats.decr self key
  end.

(** The calls in order, up to the first that raises. *)
Fixpoint run_calls (calls : list StatsCall) (self : ContextStats.t)
  : Outcome unit * ContextStats.t :=
  match calls with
  | [] => (Ok tt, self)
  | c :: rest =>
      match run_call self c with
      | (Ok _, self', _) => run_calls rest self'
      | (Raise e, self', _) => (Raise e, self')
      end
  end.

(** How many of the calls are [incr(key)], and how many [decr(key)]. *)
Fixpoint incrs (key : string) (calls : list StatsCall) : Z :=
  match calls with
  | [] => 0
  | Incr k :: rest => (if String.eqb k key then 1 else 0) + incrs key rest
  | Decr _ :: rest => incrs key rest
  end.

Fixpoint decrs (key : string) (calls : list StatsCall) : Z :=
  match calls with
  | [] => 0
  | Decr k :: rest => (if String.eqb k key then 1 else 0) + decrs key rest
  | Incr _ :: rest => decrs key rest
  end.

(** * Properties *)

(** ** Resource counters *)

(** C4: on every [ContextStats] object and for each of the six resource keys,
    [incr] adds one to the created component and keeps the freed one, [decr]
    adds one to the freed component and keeps the created one, and both leave
    the other counters and [warn_threshold] as they were. *)
Theorem stats_incr_decr_frame (self : ContextStats.t) (k : string) :
  k ∈ ContextStats.resource_keys →
  let after_incr := (ContextStats.incr self k).1.2 in
  let after_decr := (ContextStats.decr self k).1.2 in
  ∃ c f : Z,
    ContextStats.getattr self k = Ok (c, f) ∧
    ContextStats.getattr after_incr k = Ok (c + 1, f) ∧
    ContextStats.getattr after_decr k = Ok (c, f + 1) ∧
    (∀ k', k' ∈ ContextStats.resource_keys → k' ≠ k →
       ContextStats.getattr after_incr k' = ContextStats.getattr self k' ∧
       ContextStats.getattr after_decr k' = ContextStats.getattr self k') ∧
    ContextStats.warn_threshold after_incr = ContextStats.warn_threshold self ∧
    ContextStats.warn_threshold after_decr = ContextStats.warn_threshold self.
Proof.
  intros Hk.
  assert (Hkeys : ∀ x, x ∈ ContextStats.resource_keys →
     x = "texture" ∨ x = "framebuffer" ∨ x = "buffer" ∨ x = "program"
     ∨ x = "vertex_array" ∨ x = "geometry").
  { intros x Hx. unfold ContextStats.resource_keys in Hx.
    repeat (apply elem_of_cons in Hx as [-> | Hx]; [tauto |]).
    by apply elem_of_nil in Hx. }
  destruct self as [wt [c1 f1] [c2 f2] [c3 f3] [c4 f4] [c5 f5] [c6 f6]].
  apply Hkeys in Hk.
  destruct Hk as [-> | [-> | [-> | [-> | [-> | ->]]]]];
    (eexists _, _; split; [reflexivity |]);
    (split; [unfold ContextStats.incr; cbn;
             destruct (wt =? 0); [reflexivity |];
             match goal with |- context [(?a && ?b)%bool] =>
               destruct (a && b)%bool end; reflexivity |]);
    (split; [reflexivity |]);
    (split; [| split;
       [unfold ContextStats.incr; cbn; destruct (wt =? 0); [reflexivity |];
        match goal with |- context [(?a && ?b)%bool] =>
          destruct (a && b)%bool end; reflexivity
       | reflexivity]]);
    intros k' Hk' Hne; apply Hkeys in Hk';
    destruct Hk' as [-> | [-> | [-> | [-> | [-> | ->]]]]];
    try congruence;
    (split; [unfold ContextStats.incr; cbn;
             destruct (wt =? 0); [reflexivity |];
             match goal with |- context [(?a && ?b)%bool] =>
               destruct (a && b)%bool end; reflexivity | reflexivity]).
Qed.

Lemma stats_incr_decr_frame_witness :
  ContextStats.getattr
    (ContextStats.incr (ContextStats.__init__ 1000) "program").1.2 "program"
  = Ok (1, 0).
Proof.
  destruct (stats_incr_decr_frame (ContextStats.__init__ 1000) "program")
    as (c & f & H0 & H1 & _).
  - unfold ContextStats.resource_keys. set_solver.
  - cbn in H0. injection H0 as <- <-. exact H1.
Defined.

(** ** Sequences of counter updates *)

Lemma resource_key_cases (k : string) :
  k ∈ ContextStats.resource_keys ↔
  k = "texture" ∨ k = "framebuffer" ∨ k = "buffer" ∨ k = "program"
  ∨ k = "vertex_array" ∨ k = "geometry".
Proof.
  unfold ContextStats.resource_keys. rewrite !elem_of_cons, elem_of_nil.
  tauto.
Qed.

Lemma getattr_setattr (self : ContextStats.t) (k k' : string) (v : Z * Z) :
  k ∈ ContextStats.resource_keys → k' ∈ ContextStats.resource_keys →
  ContextStats.getattr (ContextStats.setattr self k v) k'
  = if String.eqb k k' then Ok v else ContextStats.getattr self k'.
Proof.
  rewrite !resource_key_cases.
  intros [-> | [-> | [-> | [-> | [-> | ->]]]]]
         [-> | [-> | [-> | [-> | [-> | ->]]]]]; reflexivity.
Qed.

Lemma warn_threshold_setattr (self : ContextStats.t) (k : string) (v : Z * Z) :
  ContextStats.warn_threshold (ContextStats.setattr self k v)
  = ContextStats.warn_threshold self.
Proof.
  unfold ContextStats.setattr.
  repeat match goal with
         | |- context [if ?b then _ else _] => destruct b; [reflexivity |]
         end.
  reflexivity.
Qed.

Lemma getattr_resource (self : ContextStats.t) (k : string) :
  k ∈ ContextStats.resource_keys →
  ∃ c f, ContextStats.getattr self k = Ok (c, f).
Proof.
  rewrite resource_key_cases.
  intros [-> | [-> | [-> | [-> | [-> | ->]]]]]; cbn;
    match goal with |- context [Ok ?p] => destruct p end; by eexists _, _.
Qed.

Lemma incr_outcome (self : ContextStats.t) (k : string) (c f : Z) :
  ContextStats.getattr self k = Ok (c, f) →
  ∃ records,
    ContextStats.incr self k
    = (if ContextStats.warn_threshold self =? 0 then Raise ZeroDivisionError
       else Ok tt,
       ContextStats.setattr self k (c + 1, f),
       if ContextStats.warn_threshold self =? 0 then [] else records).
Proof.
  intros Hget. unfold ContextStats.incr. rewrite Hget.
  rewrite warn_threshold_setattr.
  destruct (ContextStats.warn_threshold self =? 0); [by exists [] |].
  destruct (_ && _); by eexists.
Qed.

Lemma decr_outcome (self : ContextStats.t) (k : string) (c f : Z) :
  ContextStats.getattr self k = Ok (c, f) →
  ContextStats.decr self k
  = (Ok tt, ContextStats.setattr self k (c, f + 1), []).
Proof. intros Hget. unfold ContextStats.decr. by rewrite Hget. Qed.

(** X1: with a zero [warn_threshold], [incr] on a resource key raises
    [ZeroDivisionError], and the created count has been advanced all the
    same; [decr] is not affected by the threshold. *)
Theorem incr_zero_threshold (self : ContextStats.t) (k : string) :
  ContextStats.warn_threshold self = 0 →
  k ∈ ContextStats.resource_keys →
  ∃ c f self',
    ContextStats.getattr self k = Ok (c, f) ∧
    ContextStats.incr self k = (Raise ZeroDivisionError, self', []) ∧
    ContextStats.getattr self' k = Ok (c + 1, f) ∧
    (ContextStats.decr self k).1.1 = Ok tt.
Proof.
  intros Hzero Hk. destruct (getattr_resource self k Hk) as (c & f & Hget).
  destruct (incr_outcome self k c f Hget) as (records & Hincr).
  rewrite Hzero in Hincr. cbn [Z.eqb] in Hincr.
  exists c, f. eexists. split; [exact Hget |]. split; [exact Hincr |]. split.
  - by rewrite getattr_setattr, String.eqb_refl.
  - by rewrite (decr_outcome self k c f Hget).
Qed.

Lemma incr_zero_threshold_witness :
  ContextStats.warn_threshold (ContextStats.__init__ 0) = 0 ∧
  "texture" ∈ ContextStats.resource_keys ∧
  ∃ self',
    ContextStats.incr (ContextStats.__init__ 0) "texture"
    = (Raise ZeroDivisionError, self', []) ∧
    ContextStats.getattr self' "texture" = Ok (1, 0).
Proof.
  split; [reflexivity |].
  assert (Hk : "texture" ∈ ContextStats.resource_keys)
    by (apply resource_key_cases; tauto).
  split; [exact Hk |].
  destruct (incr_zero_threshold (ContextStats.__init__ 0) "texture" eq_refl Hk)
    as (c & f & self' & Hget & Hincr & Hafter & _).
  cbn in Hget. injection Hget as <- <-.
  exists self'. split; [exact Hincr | exact Hafter].
Defined.

(** X2: [incr] and [decr] with a key that is none of the six counters
    raise before anything is stored: the object is left as it was and
    nothing is logged. *)
Theorem stats_unknown_key (self : ContextStats.t) (k : string) :
  k ∉ ContextStats.resource_keys →
  ∃ e, ContextStats.incr self k = (Raise e, self, []) ∧
       ContextStats.decr self k = (Raise e, self, []).
Proof.
  intros Hk. rewrite resource_key_cases in Hk.
  unfold ContextStats.incr, ContextStats.decr, ContextStats.getattr.
  repeat match goal with
         | |- context [String.eqb k ?s] =>
             destruct (String.eqb_spec k s) as [-> | _]; [tauto |]
         end.
  repeat match goal with
         | |- context [if ?b then _ else _] => destruct b
         end; by eexists.
Qed.

Lemma stats_unknown_key_witness :
  ("shader" ∉ ContextStats.resource_keys) ∧
  ContextStats.incr (ContextStats.__init__ 1000) "shader"
  = (Raise (AttributeError "shader"), ContextStats.__init__ 1000, []).
Proof.
  assert (Hk : "shader" ∉ ContextStats.resource_keys).
  { rewrite resource_key_cases.
    intros [H | [H | [H | [H | [H | H]]]]]; discriminate H. }
  split; [exact Hk |].
  destruct (stats_unknown_key (ContextStats.__init__ 1000) "shader" Hk)
    as (e & Hincr & _).
  rewrite Hincr. cbn in Hincr. by injection Hincr as <-.
Defined.

(** X3: with a non-zero threshold, any sequence of [incr] and [decr] calls
    on resource keys runs through, and afterwards each counter holds its
    created count plus the number of [incr] calls on it and its freed count
    plus the number of [decr] calls on it, in whatever order the calls
    came; the threshold is unchanged.  Nothing keeps the freed count below
    the created one. *)
Theorem stats_calls_add_up (calls : list StatsCall) (self : ContextStats.t) :
  ContextStats.warn_threshold self ≠ 0 →
  Forall (λ c, call_key c ∈ ContextStats.resource_keys) calls →
  ∃ self',
    run_calls calls self = (Ok tt, self') ∧
    ContextStats.warn_threshold self' = ContextStats.warn_threshold self ∧
    ∀ k c f, k ∈ ContextStats.resource_keys →
      ContextStats.getattr self k = Ok (c, f) →
      ContextStats.getattr self' k
      = Ok (c + incrs k calls, f + decrs k calls).
Proof.
  intros Hthreshold Hkeys. revert self Hthreshold.
  induction Hkeys as [| call rest Hkey _ IH]; intros self Hthreshold.
  - exists self. repeat split; try done.
    intros k c f _ ->. cbn. by rewrite !Z.add_0_r.
  - destruct (getattr_resource self (call_key call) Hkey) as (c0 & f0 & Hget).
    destruct call as [key | key]; cbn [call_key] in Hkey, Hget;
      cbn [run_calls run_call].
    + destruct (incr_outcome self key c0 f0 Hget) as (records & ->).
      apply Z.eqb_neq in Hthreshold as Hne. rewrite Hne.
      destruct (IH (ContextStats.setattr self key (c0 + 1, f0)))
        as (self' & Hrun & Hwt & Hcount);
        [by rewrite warn_threshold_setattr |].
      exists self'. split; [exact Hrun |].
      split; [by rewrite Hwt, warn_threshold_setattr |].
      intros k c f Hk Hk0. cbn [incrs decrs].
      destruct (String.eqb_spec key k) as [-> | Hneq].
      * rewrite Hget in Hk0. injection Hk0 as -> ->.
        rewrite (Hcount k (c + 1) f Hk)
          by (by rewrite getattr_setattr, String.eqb_refl).
        do 2 f_equal. lia.
      * rewrite (Hcount k c f Hk); [do 2 f_equal; lia |].
        rewrite getattr_setattr by done.
        destruct (String.eqb_spec key k); [done | exact Hk0].
    + rewrite (decr_outcome self key c0 f0 Hget).
      destruct (IH (ContextStats.setattr self key (c0, f0 + 1)))
        as (self' & Hrun & Hwt & Hcount);
        [by rewrite warn_threshold_setattr |].
      exists self'. split; [exact Hrun |].
      split; [by rewrite Hwt, warn_threshold_setattr |].
      intros k c f Hk Hk0. cbn [incrs decrs].
      destruct (String.eqb_spec key k) as [-> | Hneq].
      * rewrite Hget in Hk0. injection Hk0 as -> ->.
        rewrite (Hcount k c (f + 1) Hk)
          by (by rewrite getattr_setattr, String.eqb_refl).
        do 2 f_equal. lia.
      * rewrite (Hcount k c f Hk); [do 2 f_equal; lia |].
        rewrite getattr_setattr by done.
        destruct (String.eqb_spec key k); [done | exact Hk0].
Qed.

Lemma stats_calls_add_up_witness :
  ∃ self',
    run_calls [Decr "buffer"; Incr "buffer"; Decr "buffer"]
      (ContextStats.__init__ 1000) = (Ok tt, self') ∧
    ContextStats.getattr self' "buffer" = Ok (1, 2).
Proof.
  assert (Hk : "buffer" ∈ ContextStats.resource_keys)
    by (apply resource_key_cases; tauto).
  destruct (stats_calls_add_up [Decr "buffer"; Incr "buffer"; Decr "buffer"]
              (ContextStats.__init__ 1000))
    as (self' & Hrun & _ & Hcount).
  - discriminate.
  - repeat constructor; exact Hk.
  - exists self'. split; [exact Hrun |].
    apply (Hcount "buffer" 0 0 Hk eq_refl).
Defined.

(** ** Running computations *)

Lemma bind_ok {A B : Type} (m : M A) (k : A → M B) (w w1 : World) (a : A) :
  m w = (Ok a, w1) → (m ≫= k) w = k a w1.
Proof. intros H. unfold mbind, M_bind. by rewrite H. Qed.

Lemma bind_raise {A B : Type} (m : M A) (k : A → M B) (w w1 : World) e :
  m w = (Raise e, w1) → (m ≫= k) w = (Raise e, w1).
Proof. intros H. unfold mbind, M_bind. by rewrite H. Qed.

Lemma load_ok (self : addr) (name : string) (w : World) (c : ContextObj) :
  contexts w !! self = Some c → load self name w = (Ok c, w).
Proof. intros H. unfold load. by rewrite H. Qed.

Ltac run_load H := rewrite (bind_ok _ _ _ _ _ (load_ok _ _ _ _ H)).

(** A loop of driver calls appends one call per element, in order. *)
Lemma for_each_call {A : Type} (f : A → Event) (xs : list A) (w : World) :
  for_each xs (λ x, call (f x)) w
  = (Ok tt,
     mkWorld (driver w) (trace w ++ (f <$> xs)) (current_context w)
       (Context_active w) (contexts w)).
Proof.
  revert w. induction xs as [| x xs IH]; intros w; simpl.
  - rewrite app_nil_r. by destruct w.
  - unfold mbind, M_bind, call. rewrite IH. simpl.
    by rewrite <- app_assoc.
Qed.

Lemma call_if (b : bool) (x y : Event) (w : World) :
  (if b then call x else call y) w = (Ok tt, emit (if b then x else y) w).
Proof. by destruct b. Qed.

Lemma is_enabled_lookup (self : addr) (f : Z) (w : World) (c : ContextObj) :
  contexts w !! self = Some c →
  Context.is_enabled self f w = (Ok (bool_decide (f ∈ _flags c)), w).
Proof. intros H. unfold Context.is_enabled. by run_load H. Qed.

Lemma flag_in_set (f : Z) (F : list Z) :
  bool_decide (f ∈ (list_to_set F : gset Z)) = bool_decide (f ∈ F).
Proof. apply bool_decide_ext. by rewrite elem_of_list_to_set. Qed.

Lemma enable_run (w : World) (self : addr) (c : ContextObj) (fs : list Z) :
  contexts w !! self = Some c →
  Context.enable self fs w
  = (Ok tt,
     mkWorld (driver w) (trace w ++ (glEnable <$> fs)) (current_context w)
       (Context_active w)
       (<[self := with_flags (_flags c ∪ list_to_set fs) c]> (contexts w))).
Proof.
  intros Hc. unfold Context.enable. run_load Hc.
  unfold mbind at 1, M_bind, store. by rewrite for_each_call.
Qed.

Lemma disable_run (w : World) (self : addr) (c : ContextObj) (fs : list Z) :
  contexts w !! self = Some c →
  Context.disable self fs w
  = (Ok tt,
     mkWorld (driver w) (trace w ++ (glDisable <$> fs)) (current_context w)
       (Context_active w)
       (<[self := with_flags (_flags c ∖ list_to_set fs) c]> (contexts w))).
Proof.
  intros Hc. unfold Context.disable. run_load Hc.
  unfold mbind at 1, M_bind, store. by rewrite for_each_call.
Qed.

(** ** Context flags *)

(** X4: [enable] records every flag it is given, leaves the others as they
    were and issues one [glEnable] per argument, in order, whether or not the
    flag was already recorded; [disable] does the same with removal and
    [glDisable]. *)
Theorem enable_disable_flags (w : World) (self : addr) (c : ContextObj)
    (fs : list Z) :
  contexts w !! self = Some c →
  (∃ w', Context.enable self fs w = (Ok tt, w') ∧
     trace w' = trace w ++ (glEnable <$> fs) ∧
     (∀ f, f ∈ fs → Context.is_enabled self f w' = (Ok true, w')) ∧
     (∀ f, f ∉ fs →
        (Context.is_enabled self f w').1 = (Context.is_enabled self f w).1))
  ∧
  (∃ w', Context.disable self fs w = (Ok tt, w') ∧
     trace w' = trace w ++ (glDisable <$> fs) ∧
     (∀ f, f ∈ fs → Context.is_enabled self f w' = (Ok false, w')) ∧
     (∀ f, f ∉ fs →
        (Context.is_enabled self f w').1 = (Context.is_enabled self f w).1)).
Proof.
  intros Hc. split.
  - eexists. split; [by apply enable_run |].
    split; [reflexivity |]. split.
    + intros f Hf. erewrite is_enabled_lookup by (simpl; apply lookup_insert_eq).
      simpl. rewrite bool_decide_eq_true_2; [done |].
      apply elem_of_union_r. by apply elem_of_list_to_set.
    + intros f Hf. erewrite !is_enabled_lookup;
        [| exact Hc | simpl; apply lookup_insert_eq].
      simpl. f_equal. apply bool_decide_ext.
      rewrite elem_of_union, elem_of_list_to_set. tauto.
  - eexists. split; [by apply disable_run |].
    split; [reflexivity |]. split.
    + intros f Hf. erewrite is_enabled_lookup by (simpl; apply lookup_insert_eq).
      simpl. rewrite bool_decide_eq_false_2; [done |].
      rewrite elem_of_difference, elem_of_list_to_set. tauto.
    + intros f Hf. erewrite !is_enabled_lookup;
        [| exact Hc | simpl; apply lookup_insert_eq].
      simpl. f_equal. apply bool_decide_ext.
      rewrite elem_of_difference, elem_of_list_to_set. tauto.
Qed.

Lemma enable_disable_flags_witness :
  contexts one_context_world !! 1%positive = Some fresh_context ∧
  ∃ w', Context.enable 1%positive [Context.BLEND; Context.BLEND]
          one_context_world = (Ok tt, w') ∧
        trace w' = [glEnable Context.BLEND; glEnable Context.BLEND].
Proof.
  split; [reflexivity |].
  destruct (enable_disable_flags one_context_world 1%positive fresh_context
              [Context.BLEND; Context.BLEND] eq_refl)
    as [(w' & Hrun & Htrace & _) _].
  exists w'. split; [exact Hrun | exact Htrace].
Defined.

(** X5: [disable(fs)] after [enable(fs)] leaves enabled exactly the flags
    that were enabled before and are not in [fs]: a flag of [fs] that was on
    before the pair of calls ends up off. *)
Theorem disable_after_enable (w : World) (self : addr) (c : ContextObj)
    (fs : list Z) :
  contexts w !! self = Some c →
  ∃ w', (Context.enable self fs;; Context.disable self fs) w = (Ok tt, w') ∧
    trace w' = trace w ++ (glEnable <$> fs) ++ (glDisable <$> fs) ∧
    ∀ f, Context.is_enabled self f w'
         = (Ok (bool_decide (f ∈ _flags c ∧ f ∉ fs)), w').
Proof.
  intros Hc. eexists. split; [| split].
  - erewrite bind_ok by (by apply enable_run).
    apply disable_run. simpl. apply lookup_insert_eq.
  - simpl. by rewrite <- app_assoc.
  - intros f. erewrite is_enabled_lookup by (simpl; apply lookup_insert_eq).
    simpl. do 2 f_equal. apply bool_decide_ext.
    rewrite elem_of_difference, elem_of_union, elem_of_list_to_set. tauto.
Qed.

Lemma disable_after_enable_witness :
  contexts one_context_world !! 1%positive = Some fresh_context ∧
  ∃ w', (Context.enable 1%positive [Context.BLEND];;
         Context.disable 1%positive [Context.BLEND]) one_context_world
        = (Ok tt, w') ∧
    Context.is_enabled 1%positive Context.BLEND w' = (Ok false, w').
Proof.
  split; [reflexivity |].
  destruct (disable_after_enable one_context_world 1%positive fresh_context
              [Context.BLEND] eq_refl) as (w' & Hrun & _ & Hflags).
  exists w'. split; [exact Hrun |]. rewrite Hflags. reflexivity.
Defined.

(** X6: after [enable_only] with the flags [F], whatever was recorded
    before, [is_enabled] holds exactly on [F]; the driver calls issued are
    one for each of [BLEND], [DEPTH_TEST], [CULL_FACE] and
    [PROGRAM_POINT_SIZE], in this order, [glEnable] if the flag is in [F] and
    [glDisable] if not, and no call for any other flag. *)
Theorem enable_only_known_flags (w : World) (self : addr) (c : ContextObj)
    (F : list Z) :
  contexts w !! self = Some c →
  ∃ w', Context.enable_only self F w = (Ok tt, w') ∧
    (∀ f, Context.is_enabled self f w' = (Ok (bool_decide (f ∈ F)), w')) ∧
    trace w' = trace w ++
      ((λ k, if bool_decide (k ∈ F) then glEnable k else glDisable k)
         <$> known_flags).
Proof.
  intros Hc. eexists. split; [| split].
  - unfold Context.enable_only. run_load Hc.
    unfold mbind, M_bind, store. rewrite !call_if. reflexivity.
  - intros f. erewrite is_enabled_lookup by (simpl; apply lookup_insert_eq).
    simpl. by rewrite flag_in_set.
  - simpl. rewrite <- !app_assoc, !flag_in_set. reflexivity.
Qed.

Lemma enable_only_known_flags_witness :
  contexts one_context_world !! 1%positive = Some fresh_context ∧
  ∃ w', Context.enable_only 1%positive [Context.BLEND; 0x0C11]
          one_context_world = (Ok tt, w') ∧
    trace w' = [glEnable Context.BLEND; glDisable Context.DEPTH_TEST;
                glDisable Context.CULL_FACE;
                glDisable Context.PROGRAM_POINT_SIZE].
Proof.
  split; [reflexivity |].
  destruct (enable_only_known_flags one_context_world 1%positive fresh_context
              [Context.BLEND; 0x0C11] eq_refl) as (w' & Hrun & _ & Htrace).
  exists w'. split; [exact Hrun |]. rewrite Htrace. reflexivity.
Defined.

(** ** The recorded flags and the driver *)

Lemma driver_flags_enable (fs : list Z) (on : gset Z) :
  driver_flags (glEnable <$> fs) on = on ∪ list_to_set fs.
Proof.
  revert on. induction fs as [| f fs IH]; intros on.
  - cbn. by rewrite union_empty_r_L.
  - cbn [fmap list_fmap driver_flags foldl].
    change (foldl _ ?s (glEnable <$> fs))
      with (driver_flags (glEnable <$> fs) s).
    rewrite IH. cbn [list_to_set foldr]. by rewrite (assoc_L (∪)).
Qed.

Lemma driver_flags_disable (fs : list Z) (on : gset Z) :
  driver_flags (glDisable <$> fs) on = on ∖ list_to_set fs.
Proof.
  revert on. induction fs as [| f fs IH]; intros on.
  - cbn. by rewrite difference_empty_L.
  - cbn [fmap list_fmap driver_flags foldl].
    change (foldl _ ?s (glDisable <$> fs))
      with (driver_flags (glDisable <$> fs) s).
    rewrite IH. cbn [list_to_set foldr].
    by rewrite difference_difference_l_L.
Qed.

(** X7: [enable] and [disable] keep the recorded flags in step with the
    driver, for any flags at all: the set recorded afterwards is the set
    recorded before, updated by the very calls that were issued. *)
Theorem enable_disable_mirror_driver (w : World) (self : addr)
    (c : ContextObj) (fs : list Z) :
  contexts w !! self = Some c →
  (∃ w' c', Context.enable self fs w = (Ok tt, w') ∧
     contexts w' !! self = Some c' ∧
     _flags c' = driver_flags (drop (length (trace w)) (trace w')) (_flags c))
  ∧
  (∃ w' c', Context.disable self fs w = (Ok tt, w') ∧
     contexts w' !! self = Some c' ∧
     _flags c' = driver_flags (drop (length (trace w)) (trace w')) (_flags c)).
Proof.
  intros Hc. split.
  - eexists _, _. split; [by apply enable_run |].
    split; [apply lookup_insert_eq |]. cbn [trace _flags with_flags].
    by rewrite drop_app_length, driver_flags_enable.
  - eexists _, _. split; [by apply disable_run |].
    split; [apply lookup_insert_eq |]. cbn [trace _flags with_flags].
    by rewrite drop_app_length, driver_flags_disable.
Qed.

Lemma enable_disable_mirror_driver_witness :
  contexts one_context_world !! 1%positive = Some fresh_context ∧
  ∃ w' c', Context.enable 1%positive [0x0C11; Context.BLEND] one_context_world
           = (Ok tt, w') ∧
    contexts w' !! 1%positive = Some c' ∧
    _flags c' = driver_flags (trace w') ∅.
Proof.
  split; [reflexivity |].
  destruct (enable_disable_mirror_driver one_context_world 1%positive
              fresh_context [0x0C11; Context.BLEND] eq_refl)
    as [(w' & c' & Hrun & Hc' & Hflags) _].
  exists w', c'. split; [exact Hrun |]. split; [exact Hc' | exact Hflags].
Defined.

Lemma driver_flags_cons (e : Event) (events : list Event) (on : gset Z) :
  driver_flags (e :: events) on = driver_flags events (driver_flags [e] on).
Proof. reflexivity. Qed.

Lemma toggled (f k : Z) (b : bool) (s : gset Z) :
  f ∈ driver_flags [if b then glEnable k else glDisable k] s
  ↔ (f = k ∧ b = true) ∨ (f ≠ k ∧ f ∈ s).
Proof.
  destruct b; cbn [driver_flags foldl].
  - rewrite elem_of_union, elem_of_singleton.
    destruct (decide (f = k)); intuition congruence.
  - rewrite elem_of_difference, elem_of_singleton. intuition congruence.
Qed.

(** X8: [enable_only] keeps the recorded flags in step with the driver as
    long as only [BLEND], [DEPTH_TEST], [CULL_FACE] and [PROGRAM_POINT_SIZE]
    are in play, both among the flags recorded before and among the
    arguments. *)
Theorem enable_only_mirrors_driver (w : World) (self : addr) (c : ContextObj)
    (F : list Z) :
  contexts w !! self = Some c →
  (∀ f, f ∈ _flags c → f ∈ known_flags) →
  (∀ f, f ∈ F → f ∈ known_flags) →
  ∃ w' c', Context.enable_only self F w = (Ok tt, w') ∧
    contexts w' !! self = Some c' ∧
    _flags c' = driver_flags (drop (length (trace w)) (trace w')) (_flags c).
Proof.
  intros Hc Hold Hnew. eexists _, _. split; [| split].
  - unfold Context.enable_only. run_load Hc.
    unfold mbind, M_bind, store. rewrite !call_if. reflexivity.
  - apply lookup_insert_eq.
  - cbn [trace emit _flags with_flags]. rewrite <- !app_assoc.
    rewrite drop_app_length. cbn [app].
    rewrite !flag_in_set, !(driver_flags_cons _ (_ :: _)).
    apply set_eq. intros f.
    rewrite elem_of_list_to_set, !toggled.
    assert (Hknown : f ∈ known_flags ↔
              f = Context.BLEND ∨ f = Context.DEPTH_TEST
              ∨ f = Context.CULL_FACE ∨ f = Context.PROGRAM_POINT_SIZE).
    { unfold known_flags. rewrite !elem_of_cons, elem_of_nil. tauto. }
    specialize (Hold f). specialize (Hnew f). rewrite Hknown in Hold, Hnew.
    rewrite !bool_decide_eq_true. clear Hknown.
    destruct (decide (f = Context.PROGRAM_POINT_SIZE)) as [-> | H4];
      [tauto |].
    destruct (decide (f = Context.CULL_FACE)) as [-> | H3]; [tauto |].
    destruct (decide (f = Context.DEPTH_TEST)) as [-> | H2]; [tauto |].
    destruct (decide (f = Context.BLEND)) as [-> | H1]; tauto.
Qed.

Lemma enable_only_mirrors_driver_witness :
  contexts one_context_world !! 1%positive = Some fresh_context ∧
  ∃ w' c', Context.enable_only 1%positive [Context.DEPTH_TEST]
             one_context_world = (Ok tt, w') ∧
    contexts w' !! 1%positive = Some c' ∧
    _flags c' = driver_flags (trace w') ∅.
Proof.
  split; [reflexivity |].
  destruct (enable_only_mirrors_driver one_context_world 1%positive
              fresh_context [Context.DEPTH_TEST] eq_refl)
    as (w' & c' & Hrun & Hc' & Hflags).
  - intros f Hf. by apply not_elem_of_empty in Hf.
  - intros f Hf. apply list_elem_of_singleton in Hf as ->.
    unfold known_flags. rewrite !elem_of_cons. tauto.
  - exists w', c'. split; [exact Hrun |]. split; [exact Hc' | exact Hflags].
Defined.

(** ** Blend function and point size *)

(** X9: assigning [(src, dst)] to [blend_func] issues
    [glBlendFunc(src, dst)] and nothing else, and reading the property
    afterwards returns [(src, dst)]. *)
Theorem blend_func_set_get (w : World) (self : addr) (c : ContextObj)
    (src dst : Z) :
  contexts w !! self = Some c →
  ∃ w', Context.blend_func_setter self (src, dst) w = (Ok tt, w') ∧
    trace w' = trace w ++ [glBlendFunc src dst] ∧
    Context.blend_func self w' = (Ok (src, dst), w').
Proof.
  intros Hc. eexists. split; [| split].
  - unfold Context.blend_func_setter. run_load Hc. reflexivity.
  - reflexivity.
  - unfold Context.blend_func.
    erewrite bind_ok by (apply load_ok; simpl; apply lookup_insert_eq).
    reflexivity.
Qed.

Lemma blend_func_set_get_witness :
  contexts one_context_world !! 1%positive = Some fresh_context ∧
  ∃ w', Context.blend_func_setter 1%positive
          Context.BLEND_PREMULTIPLIED_ALPHA one_context_world = (Ok tt, w') ∧
    Context.blend_func 1%positive w'
    = (Ok Context.BLEND_PREMULTIPLIED_ALPHA, w').
Proof.
  split; [reflexivity |].
  destruct (blend_func_set_get one_context_world 1%positive fresh_context
              0x0302 0x0001 eq_refl) as (w' & Hset & _ & Hget).
  exists w'. split; [exact Hset | exact Hget].
Defined.

Lemma point_size_setter_run (w : World) (self : addr) (c : ContextObj)
    (v : float) :
  contexts w !! self = Some c →
  Context.point_size_setter self v w
  = (Ok tt,
     mkWorld (driver w) (trace w ++ [glPointSize (_point_size c)])
       (current_context w) (Context_active w)
       (<[self := with_point_size v c]> (contexts w))).
Proof.
  intros Hc. unfold Context.point_size_setter. run_load Hc. reflexivity.
Qed.

(** X10: assigning [v] to [point_size] hands the driver the size the context
    held before the assignment, not [v]; the property then reads [v]. *)
Theorem point_size_setter_sends_previous (w : World) (self : addr)
    (c : ContextObj) (v : float) :
  contexts w !! self = Some c →
  ∃ w', Context.point_size_setter self v w = (Ok tt, w') ∧
    trace w' = trace w ++ [glPointSize (_point_size c)] ∧
    Context.point_size self w' = (Ok v, w').
Proof.
  intros Hc. eexists. split; [by apply point_size_setter_run |].
  split; [reflexivity |].
  unfold Context.point_size.
  erewrite bind_ok by (apply load_ok; simpl; apply lookup_insert_eq).
  reflexivity.
Qed.

Lemma point_size_setter_sends_previous_witness :
  contexts one_context_world !! 1%positive = Some fresh_context ∧
  ∃ w', Context.point_size_setter 1%positive 5%float one_context_world
        = (Ok tt, w') ∧
    trace w' = [glPointSize 1%float] ∧
    Context.point_size 1%positive w' = (Ok 5%float, w').
Proof.
  split; [reflexivity |].
  apply (point_size_setter_sends_previous one_context_world 1%positive
           fresh_context 5%float eq_refl).
Defined.

(** X11: of two assignments to [point_size] in a row the driver receives the
    size held at the start and then the first value; the value assigned last
    is recorded but never reaches the driver. *)
Theorem point_size_assigned_twice (w : World) (self : addr) (c : ContextObj)
    (v1 v2 : float) :
  contexts w !! self = Some c →
  ∃ w', (Context.point_size_setter self v1;;
         Context.point_size_setter self v2) w = (Ok tt, w') ∧
    trace w' = trace w ++ [glPointSize (_point_size c); glPointSize v1] ∧
    Context.point_size self w' = (Ok v2, w').
Proof.
  intros Hc. eexists. split; [| split].
  - erewrite bind_ok by (by apply point_size_setter_run).
    apply point_size_setter_run. simpl. apply lookup_insert_eq.
  - simpl. by rewrite <- app_assoc.
  - unfold Context.point_size.
    erewrite bind_ok by (apply load_ok; simpl; apply lookup_insert_eq).
    reflexivity.
Qed.

Lemma point_size_assigned_twice_witness :
  contexts one_context_world !! 1%positive = Some fresh_context ∧
  ∃ w', (Context.point_size_setter 1%positive 5%float;;
         Context.point_size_setter 1%positive 9%float) one_context_world
        = (Ok tt, w') ∧
    trace w' = [glPointSize 1%float; glPointSize 5%float].
Proof.
  split; [reflexivity |].
  destruct (point_size_assigned_twice one_context_world 1%positive
              fresh_context 5%float 9%float eq_refl)
    as (w' & Hrun & Htrace & _).
  exists w'. split; [exact Hrun | exact Htrace].
Defined.

(** ** The error property *)

(** X12: reading [error] issues exactly one [glGetError] and touches nothing
    else; the result is [None] exactly when the driver answers
    [GL_NO_ERROR], and otherwise a non-empty name, [GL_UNKNOWN_ERROR] for a
    code outside the table. *)
Theorem error_property (self : addr) (w : World) :
  let code := int_result (driver w) (trace w) glGetError in
  ∃ r, Context.error self w = (Ok r, emit glGetError w) ∧
    (r = None ↔ code = gl.GL_NO_ERROR) ∧
    (∀ name, r = Some name → name ≠ "") ∧
    (code ≠ gl.GL_NO_ERROR → Context._errors !! code = None →
     r = Some "GL_UNKNOWN_ERROR").
Proof.
  intros code. unfold Context.error, mbind, M_bind, call_int. fold code.
  destruct (code =? gl.GL_NO_ERROR) eqn:E.
  - apply Z.eqb_eq in E. exists None. repeat split; try done.
  - apply Z.eqb_neq in E. eexists. split; [reflexivity |].
    split; [split; [discriminate | done] |]. split.
    + intros name [= <-].
      destruct (Context._errors !! code) as [s |] eqn:Hs; [| done].
      simpl. intros ->. revert Hs. unfold Context._errors.
      intros Hs. apply elem_of_list_to_map_2 in Hs.
      repeat (apply elem_of_cons in Hs as [Hs | Hs]; [discriminate Hs |]).
      by apply elem_of_nil in Hs.
    + intros _ ->. reflexivity.
Qed.

(** ** Construction of a context *)

Lemma extend_extend (w : World) (a b : list Event) :
  extend (extend w a) b = extend w (a ++ b).
Proof. unfold extend. simpl. by rewrite <- app_assoc. Qed.

Lemma emit_extend (w : World) (a : list Event) (e : Event) :
  emit e (extend w a) = extend w (a ++ [e]).
Proof. unfold emit, extend. simpl. by rewrite <- app_assoc. Qed.

Lemma emit_as_extend (w : World) (e : Event) : emit e w = extend w [e].
Proof. reflexivity. Qed.

Lemma query_all_run (table : list (string * Z)) (attrs : gmap string Z)
    (w : World) :
  ∃ ints new, Limits.query_all table attrs w = (Ok ints, extend w new)
    ∧ Forall (λ e, read_only e = true) new
    ∧ ∀ name,
        (name ∈ table.*1 →
         ∃ enum h, (name, enum) ∈ table
                   ∧ ints !! name
                     = Some (int_result (driver w) h (glGetIntegerv enum)))
        ∧ (name ∉ table.*1 → ints !! name = attrs !! name).
Proof.
  revert attrs w. induction table as [| [key enum] rest IH]; intros attrs w.
  - exists attrs, []. split; [| split; [constructor |]].
    + unfold extend. rewrite app_nil_r. by destruct w.
    + intros name. split; [| done]. intros Hin. by apply elem_of_nil in Hin.
  - cbn [Limits.query_all]. unfold mbind, M_bind, Limits.get, call_int.
    destruct (IH (<[key := int_result (driver w) (trace w)
                             (glGetIntegerv enum)]> attrs)
                 (emit (glGetIntegerv enum) w))
      as (ints & new & -> & Hnew & Hattrs).
    exists ints, (glGetIntegerv enum :: new). split; [| split].
    + by rewrite emit_as_extend, extend_extend.
    + by constructor.
    + intros name. destruct (Hattrs name) as [Hlater Hkept].
      cbn [fmap list_fmap fst]. split.
      * intros Hin. destruct (decide (name ∈ rest.*1)) as [Hrest | Hrest].
        -- destruct (Hlater Hrest) as (enum' & h & Hmem & Hval).
           exists enum', h. split; [by apply list_elem_of_further | exact Hval].
        -- apply elem_of_cons in Hin as [-> | Hin]; [| done].
           exists enum, (trace w). split; [by apply list_elem_of_here |].
           rewrite (Hkept Hrest). apply lookup_insert_eq.
      * intros Hout. apply not_elem_of_cons in Hout as [Hne Hrest].
        rewrite (Hkept Hrest). by apply lookup_insert_ne.
Qed.

Lemma error_run (self : addr) (w : World) :
  ∃ r, Context.error self w = (Ok r, emit glGetError w).
Proof.
  unfold Context.error, mbind, M_bind, call_int.
  destruct (_ =? gl.GL_NO_ERROR); eexists; reflexivity.
Qed.

Lemma get_run (enum : Z) (w : World) (new : list Event) :
  Limits.get enum (extend w new)
  = (Ok (int_result (driver w) (trace w ++ new) (glGetIntegerv enum)),
     extend w (new ++ [glGetIntegerv enum])).
Proof. unfold Limits.get, call_int. by rewrite emit_extend. Qed.

Lemma get_run0 (enum : Z) (w : World) :
  Limits.get enum w
  = (Ok (int_result (driver w) (trace w) (glGetIntegerv enum)),
     extend w [glGetIntegerv enum]).
Proof. reflexivity. Qed.

Lemma get_str_run (enum : Z) (w : World) (new : list Event) :
  Limits.get_str enum (extend w new)
  = (match ptr_result (driver w) (trace w ++ new) (glGetString enum) with
     | Some s => Ok s
     | None => Raise (AttributeError "decode")
     end,
     extend w (new ++ [glGetString enum])).
Proof.
  unfold Limits.get_str, mbind, M_bind, call_ptr. rewrite emit_extend.
  cbn [driver trace extend]. by destruct (ptr_result _ _ _).
Qed.


(** [Limits.__init__] either fails on a NULL string, or returns the limits
    with the versions and strings the driver answered; all it issues are
    read-only calls. *)
Lemma limits_init_run (ctx : addr) (w : World) :
  ∃ new ints, Forall (λ e, read_only e = true) new ∧
    Limits.__init__ ctx w
    = (match vendor_answer w, renderer_answer w with
       | Some vendor, Some renderer =>
           Ok (mkLimits ctx (minor_answer w) (major_answer w) vendor renderer
                 ints)
       | _, _ => Raise (AttributeError "decode")
       end,
       extend w new) ∧
    (is_Some (vendor_answer w) → is_Some (renderer_answer w) →
     answers_of w Limits.int_limits ints).
Proof.
  unfold Limits.__init__, vendor_answer, renderer_answer, minor_answer,
    major_answer, answers_of.
  generalize Limits.int_limits. intros table.
  erewrite bind_ok by apply (get_run0 gl.GL_MINOR_VERSION w).
  erewrite bind_ok by apply get_run.
  cbn [app].
  destruct (ptr_result (driver w) _ (glGetString gl.GL_VENDOR))
    as [vendor |] eqn:Hv.
  2: { erewrite bind_raise by (rewrite get_str_run; cbn [app]; rewrite Hv;
                               reflexivity).
       eexists _, ∅.
       refine (conj _ (conj eq_refl _));
         [by repeat constructor | by intros [? ?]]. }
  erewrite bind_ok by (rewrite get_str_run; cbn [app]; rewrite Hv;
                       reflexivity).
  cbn [app].
  destruct (ptr_result (driver w) _ (glGetString gl.GL_RENDERER))
    as [renderer |] eqn:Hr.
  2: { erewrite bind_raise by (rewrite get_str_run; cbn [app]; rewrite Hr;
                               reflexivity).
       eexists _, ∅.
       refine (conj _ (conj eq_refl _));
         [by repeat constructor | by intros _ [? ?]]. }
  erewrite bind_ok by (rewrite get_str_run; cbn [app]; rewrite Hr;
                       reflexivity).
  cbn [app].
  match goal with
  | |- context [mbind _ (Limits.query_all table ?a) ?w0] =>
      destruct (query_all_run table a w0) as (ints & new & Hq & Hnew & Hattrs)
  end.
  assert (Hints : ∀ name, name ∈ table.*1 →
            ∃ enum h, (name, enum) ∈ table
                      ∧ ints !! name
                        = Some (int_result (driver w) h (glGetIntegerv enum)))
    by (intros name; apply Hattrs).
  clear Hattrs.
  erewrite bind_ok by exact Hq. rewrite extend_extend.
  match goal with
  | |- context [mbind _ (Context.error ctx) ?w0] =>
      destruct (error_run ctx w0) as (r & Hr')
  end.
  erewrite bind_ok by exact Hr'. rewrite emit_extend.
  assert (Hquery : Forall (λ e, read_only e = true)
            (([glGetIntegerv gl.GL_MINOR_VERSION;
               glGetIntegerv gl.GL_MAJOR_VERSION;
               glGetString gl.GL_VENDOR; glGetString gl.GL_RENDERER]
              ++ new) ++ [glGetError])).
  { apply Forall_app. split; [| by repeat constructor].
    apply Forall_app. split; [by repeat constructor | done]. }
  destruct r as [[| ch name] |].
  - eexists _, ints. split; [exact Hquery |].
    split; [reflexivity | intros _ _; exact Hints].
  - eexists _, ints. split; [| split; [| intros _ _; exact Hints]]; cycle 1.
    + unfold mbind, M_bind, call. rewrite emit_extend. reflexivity.
    + apply Forall_app. split; [exact Hquery | by repeat constructor].
  - eexists _, ints. split; [exact Hquery |].
    split; [reflexivity | intros _ _; exact Hints].
Qed.

Lemma context_init_run (self window : addr) (w : World) :
  ∃ new ints, Forall (λ e, read_only e = true) new ∧
    Context__init__ self window w
    = match vendor_answer w, renderer_answer w with
      | Some vendor, Some renderer =>
          (Ok tt,
           mkWorld (driver w) (trace w ++ new) (current_context w) (Some self)
             (<[self := constructed self window w vendor renderer ints]>
                (contexts w)))
      | _, _ => (Raise (AttributeError "decode"), extend w new)
      end ∧
    (is_Some (vendor_answer w) → is_Some (renderer_answer w) →
     answers_of w Limits.int_limits ints).
Proof.
  destruct (limits_init_run self w) as (new & ints & Hnew & Hrun & Hints).
  exists new, ints. split; [exact Hnew |]. split; [| exact Hints].
  unfold Context__init__.
  destruct (vendor_answer w) as [vendor |];
    [destruct (renderer_answer w) as [renderer |] |].
  - erewrite bind_ok by exact Hrun. reflexivity.
  - erewrite bind_raise by exact Hrun. reflexivity.
  - erewrite bind_raise by exact Hrun. reflexivity.
Qed.

(** X13: when [Context.__init__] returns, [Context.active] is the new
    object; its blend function is [BLEND_DEFAULT = (0x0302, 0x0303)], its
    point size 1.0, its version the pair (major, minor) of the driver's
    answers, it has no active program, fresh counters with threshold 1000
    and no enabled flag; the other context objects are untouched. *)
Theorem context_init_state (self window : addr) (w w' : World) :
  Context__init__ self window w = (Ok tt, w') →
  Context_active w' = Some self ∧
  Context.blend_func self w' = (Ok (0x0302, 0x0303), w') ∧
  Context.point_size self w' = (Ok 1%float, w') ∧
  Context.gl_version self w' = (Ok (major_answer w, minor_answer w), w') ∧
  (∃ c, contexts w' !! self = Some c ∧ active_program c = None
        ∧ stats c = ContextStats.__init__ 1000) ∧
  (∀ f, Context.is_enabled self f w' = (Ok false, w')) ∧
  (∀ other, other ≠ self → contexts w' !! other = contexts w !! other).
Proof.
  destruct (context_init_run self window w) as (new & ints & _ & Hrun & _).
  rewrite Hrun.
  destruct (vendor_answer w) as [vendor |];
    [destruct (renderer_answer w) as [renderer |] |]; try discriminate.
  intros [= <-]. cbn [Context_active contexts].
  split; [reflexivity |]. split; [| split; [| split; [| split; [| split]]]].
  - unfold Context.blend_func.
    erewrite bind_ok by (apply load_ok; apply lookup_insert_eq). reflexivity.
  - unfold Context.point_size.
    erewrite bind_ok by (apply load_ok; apply lookup_insert_eq). reflexivity.
  - unfold Context.gl_version.
    erewrite bind_ok by (apply load_ok; apply lookup_insert_eq). reflexivity.
  - eexists. split; [apply lookup_insert_eq |]. split; reflexivity.
  - intros f. erewrite is_enabled_lookup by apply lookup_insert_eq.
    reflexivity.
  - intros other Hne. by apply lookup_insert_ne.
Qed.

Lemma context_init_state_witness :
  ∃ w', Context__init__ 1%positive 2%positive empty_world = (Ok tt, w') ∧
        Context_active w' = Some 1%positive ∧
        Context.blend_func 1%positive w' = (Ok (0x0302, 0x0303), w').
Proof.
  destruct (context_init_run 1%positive 2%positive empty_world)
    as (new & ints & _ & Hrun & _).
  change (vendor_answer empty_world) with (Some "") in Hrun.
  change (renderer_answer empty_world) with (Some "") in Hrun.
  eexists. split; [exact Hrun |].
  destruct (context_init_state 1%positive 2%positive empty_world _ Hrun)
    as (Hactive & Hblend & _).
  split; [exact Hactive | exact Hblend].
Defined.


(** X15: whatever its outcome, the constructor issues read-only calls
    alone: the defaults it records (blend function, point size, no flags)
    are not passed to the driver. *)
Theorem context_init_only_reads (self window : addr) (w : World) :
  ∃ new, trace (Context__init__ self window w).2 = trace w ++ new ∧
         Forall (λ e, read_only e = true) new.
Proof.
  destruct (context_init_run self window w) as (new & ints & Hnew & Hrun & _).
  exists new. split; [| exact Hnew]. rewrite Hrun.
  destruct (vendor_answer w) as [vendor |];
    [destruct (renderer_answer w) as [renderer |] |]; reflexivity.
Qed.



(** ** Programs *)

Lemma use_run (p : ProgramObj) (w : World) (c : ContextObj) :
  contexts w !! _ctx p = Some c →
  Program.use p w
  = if Program.is_active p c then (Ok tt, w)
    else (Ok tt,
          mkWorld (driver w) (trace w ++ [glUseProgram (_glo p)])
            (current_context w) (Context_active w)
            (<[_ctx p := with_active_program (Some (prog_id p)) c]>
               (contexts w))).
Proof.
  intros Hc. unfold Program.use. run_load Hc.
  by destruct (Program.is_active p c).
Qed.

Lemma is_active_with (p : ProgramObj) (c : ContextObj) :
  Program.is_active p (with_active_program (Some (prog_id p)) c) = true.
Proof. unfold Program.is_active. by apply bool_decide_eq_true_2. Qed.

Lemma use_outcome (p : ProgramObj) (w : World) (c : ContextObj) :
  contexts w !! _ctx p = Some c →
  ∃ w', Program.use p w = (Ok tt, w') ∧
    (∃ c', contexts w' !! _ctx p = Some c'
           ∧ active_program c' = Some (prog_id p)) ∧
    trace w' = trace w ++
      (if Program.is_active p c then [] else [glUseProgram (_glo p)]) ∧
    Program.use p w' = (Ok tt, w').
Proof.
  intros Hc. rewrite (use_run p w c Hc).
  destruct (Program.is_active p c) eqn:Hactive.
  - exists w. split; [reflexivity |]. split; [| split].
    + exists c. split; [exact Hc |].
      unfold Program.is_active in Hactive.
      by apply bool_decide_eq_true_1 in Hactive.
    + by rewrite app_nil_r.
    + by rewrite (use_run p w c Hc), Hactive.
  - eexists. split; [reflexivity |]. split; [| split].
    + eexists. split; [apply lookup_insert_eq | reflexivity].
    + reflexivity.
    + erewrite use_run by apply lookup_insert_eq.
      by rewrite is_active_with.
Qed.

(** X17: after [p.use()] the context's active program is [p]; the call
    [glUseProgram] goes out only if [p] was not the active program already;
    calling [use] again right away issues nothing and changes nothing. *)
Theorem use_activates_once (p : ProgramObj) (w : World) (c : ContextObj) :
  contexts w !! _ctx p = Some c →
  ∃ w', Program.use p w = (Ok tt, w') ∧
    (∃ c', contexts w' !! _ctx p = Some c'
           ∧ active_program c' = Some (prog_id p)) ∧
    trace w' = trace w ++
      (if Program.is_active p c then [] else [glUseProgram (_glo p)]) ∧
    Program.use p w' = (Ok tt, w').
Proof.
  intros Hc. rewrite (use_run p w c Hc).
  destruct (Program.is_active p c) eqn:Hactive.
  - exists w. split; [reflexivity |]. split; [| split].
    + exists c. split; [exact Hc |].
      unfold Program.is_active in Hactive.
      by apply bool_decide_eq_true_1 in Hactive.
    + by rewrite app_nil_r.
    + by rewrite (use_run p w c Hc), Hactive.
  - eexists. split; [reflexivity |]. split; [| split].
    + eexists. split; [apply lookup_insert_eq | reflexivity].
    + reflexivity.
    + erewrite use_run by apply lookup_insert_eq.
      by rewrite is_active_with.
Qed.

Lemma use_activates_once_witness :
  contexts one_context_world !! _ctx sample_program = Some fresh_context ∧
  ∃ w', Program.use sample_program one_context_world = (Ok tt, w') ∧
    trace w' = [glUseProgram 7] ∧
    Program.use sample_program w' = (Ok tt, w').
Proof.
  split; [reflexivity |].
  destruct (use_activates_once sample_program one_context_world fresh_context
              eq_refl) as (w' & Hrun & _ & Htrace & Hagain).
  exists w'. split; [exact Hrun |]. split; [exact Htrace | exact Hagain].
Defined.

(** X18: reading [p[s]] asks the getter of the uniform stored under [s] and
    returns its answer, or raises [ShaderException] when there is none; in
    neither case is the program made active: no [glUseProgram] is issued and
    no context object changes, even when another program is in use. *)
Theorem getitem_reads_without_use (p : ProgramObj) (s : string) (w : World) :
  Program.__getitem__ p s w
  = match _uniforms p !! s with
    | Some u =>
        (Ok (value_result (driver w) (trace w) (Uniform_getter u)),
         extend w [Uniform_getter u])
    | None =>
        (Raise (ShaderException
                  ("Uniform with the name `" +:+ s +:+ "` was not found.")),
         w)
    end
  ∧ contexts (Program.__getitem__ p s w).2 = contexts w
  ∧ glUseProgram (_glo p) ∉
      drop (length (trace w)) (trace (Program.__getitem__ p s w).2).
Proof.
  unfold Program.__getitem__.
  destruct (_uniforms p !! s) as [u |]; (split; [reflexivity |]);
    (split; [reflexivity |]); cbn [snd trace call_value emit raise].
  - rewrite drop_app_length. intros H.
    apply list_elem_of_singleton in H. discriminate H.
  - rewrite drop_all. apply not_elem_of_nil.
Qed.

Lemma setitem_run (p : ProgramObj) (key : string) (v : PyValue) (w : World)
    (c : ContextObj) :
  contexts w !! _ctx p = Some c →
  Program.__setitem__ p key v w
  = let w1 := (Program.use p w).2 in
    match _uniforms p !! key with
    | Some u => (Ok tt, emit (Uniform_setter u v) w1)
    | None => (Raise (Program.not_found key), w1)
    end.
Proof.
  intros Hc. unfold Program.__setitem__. run_load Hc.
  pose proof (use_run p w c Hc) as Huse.
  destruct (Program.is_active p c); cbn [negb]; rewrite Huse; cbn [snd].
  - unfold mbind, M_bind, mret, M_ret.
    by destruct (_uniforms p !! key).
  - erewrite bind_ok by exact Huse.
    by destruct (_uniforms p !! key).
Qed.

(** X19: assigning to a name that is no uniform of [p], while [p] is not
    the context's active program, raises [ShaderException] only after [use]
    has run: [glUseProgram] has been issued and [p] is the active program
    when the exception leaves. *)
Theorem setitem_missing_after_use (p : ProgramObj) (key : string) (v : PyValue)
    (w : World) (c : ContextObj) :
  contexts w !! _ctx p = Some c →
  active_program c ≠ Some (prog_id p) →
  _uniforms p !! key = None →
  ∃ w', Program.__setitem__ p key v w
        = (Raise (ShaderException
                    ("Uniform with the name `" +:+ key +:+ "` was not found.")),
           w') ∧
    trace w' = trace w ++ [glUseProgram (_glo p)] ∧
    ∃ c', contexts w' !! _ctx p = Some c'
          ∧ active_program c' = Some (prog_id p).
Proof.
  intros Hc Hother Hkey. rewrite (setitem_run p key v w c Hc), Hkey.
  rewrite (use_run p w c Hc).
  unfold Program.is_active. rewrite bool_decide_eq_false_2 by exact Hother.
  eexists. split; [reflexivity |]. split; [reflexivity |].
  eexists. split; [apply lookup_insert_eq | reflexivity].
Qed.

Lemma setitem_missing_after_use_witness :
  contexts one_context_world !! _ctx sample_program = Some fresh_context ∧
  active_program fresh_context ≠ Some (prog_id sample_program) ∧
  _uniforms sample_program !! "colour" = None ∧
  ∃ w', (Program.__setitem__ sample_program "colour" (PyScalar (PyInt 1))
           one_context_world).2 = w' ∧
    trace w' = [glUseProgram 7].
Proof.
  split; [reflexivity |]. split; [discriminate |]. split; [reflexivity |].
  destruct (setitem_missing_after_use sample_program "colour"
              (PyScalar (PyInt 1)) one_context_world fresh_context eq_refl)
    as (w' & Hrun & Htrace & _); [discriminate | reflexivity |].
  exists w'. split; [by rewrite Hrun | exact Htrace].
Defined.

(** X20: on a program of a live context, [p[key] = v] raises
    [ShaderException] exactly when [key] is no uniform of [p]; otherwise it
    returns after calling the setter of that uniform with [v], preceded by
    [glUseProgram] if [p] was not active, and [p] is the active program
    afterwards. *)
Theorem setitem_sets_on_active_program (p : ProgramObj) (key : string)
    (v : PyValue) (w : World) (c : ContextObj) :
  contexts w !! _ctx p = Some c →
  ((∃ msg, (Program.__setitem__ p key v w).1 = Raise (ShaderException msg))
   ↔ _uniforms p !! key = None) ∧
  (∀ u, _uniforms p !! key = Some u →
     ∃ w', Program.__setitem__ p key v w = (Ok tt, w') ∧
       trace w' = trace w ++
         (if Program.is_active p c then [] else [glUseProgram (_glo p)])
         ++ [Uniform_setter u v] ∧
       ∃ c', contexts w' !! _ctx p = Some c'
             ∧ active_program c' = Some (prog_id p)).
Proof.
  intros Hc. rewrite (setitem_run p key v w c Hc).
  destruct (use_outcome p w c Hc) as (w1 & Hrun & Hactive & Htrace & _).
  rewrite Hrun. cbn [snd]. split.
  - destruct (_uniforms p !! key) as [u |]; cbn [fst].
    + split; [by intros [msg ?] | done].
    + split; [done | intros _; by eexists].
  - intros u ->. eexists. split; [reflexivity |].
    cbn [trace emit contexts]. split; [| exact Hactive].
    by rewrite Htrace, <- app_assoc.
Qed.

Lemma setitem_sets_on_active_program_witness :
  contexts one_context_world !! _ctx sample_program = Some fresh_context ∧
  ∃ w', Program.__setitem__ sample_program "color" (PyScalar (PyInt 1))
          one_context_world = (Ok tt, w') ∧
    trace w'
    = [glUseProgram 7; Uniform_setter sample_uniform (PyScalar (PyInt 1))].
Proof.
  split; [reflexivity |].
  destruct (setitem_sets_on_active_program sample_program "color"
              (PyScalar (PyInt 1)) one_context_world fresh_context eq_refl)
    as [_ Hset].
  destruct (Hset sample_uniform eq_refl) as (w' & Hrun & Htrace & _).
  exists w'. split; [exact Hrun | exact Htrace].
Defined.

(** ** Compiling and linking *)








(** X23: two assignments to uniforms of the same program make it active
    once: [glUseProgram] is issued before the first setter call if the
    program was not active, and never between the two setter calls. *)
Theorem setitem_twice_uses_once (p : ProgramObj) (key1 key2 : string)
    (v1 v2 : PyValue) (u1 u2 : Uniform) (w : World) (c : ContextObj) :
  contexts w !! _ctx p = Some c →
  _uniforms p !! key1 = Some u1 →
  _uniforms p !! key2 = Some u2 →
  ∃ w', (Program.__setitem__ p key1 v1;; Program.__setitem__ p key2 v2) w
        = (Ok tt, w') ∧
    trace w' = trace w ++
      (if Program.is_active p c then [] else [glUseProgram (_glo p)])
      ++ [Uniform_setter u1 v1; Uniform_setter u2 v2].
Proof.
  intros Hc Hkey1 Hkey2.
  destruct (use_outcome p w c Hc)
    as (wu & Huse & (c' & Hc' & Hactive) & Htrace & _).
  assert (Hfirst : Program.__setitem__ p key1 v1 w
                   = (Ok tt, emit (Uniform_setter u1 v1) wu))
    by (by rewrite (setitem_run p key1 v1 w c Hc), Hkey1, Huse).
  erewrite bind_ok by exact Hfirst.
  rewrite (setitem_run p key2 v2 (emit (Uniform_setter u1 v1) wu) c' Hc').
  rewrite Hkey2, (use_run p (emit (Uniform_setter u1 v1) wu) c' Hc').
  unfold Program.is_active at 1.
  rewrite bool_decide_eq_true_2 by exact Hactive.
  eexists. split; [reflexivity |].
  cbn [snd trace emit]. rewrite Htrace, <- !app_assoc. reflexivity.
Qed.

Lemma setitem_twice_uses_once_witness :
  contexts one_context_world !! _ctx sample_program = Some fresh_context ∧
  ∃ w', (Program.__setitem__ sample_program "color" (PyScalar (PyInt 1));;
         Program.__setitem__ sample_program "color" (PyScalar (PyInt 2)))
          one_context_world = (Ok tt, w') ∧
    trace w'
    = [glUseProgram 7; Uniform_setter sample_uniform (PyScalar (PyInt 1));
       Uniform_setter sample_uniform (PyScalar (PyInt 2))].
Proof.
  split; [reflexivity |].
  destruct (setitem_twice_uses_once sample_program "color" "color"
              (PyScalar (PyInt 1)) (PyScalar (PyInt 2)) sample_uniform
              sample_uniform one_context_world fresh_context eq_refl eq_refl
              eq_refl) as (w' & Hrun & Htrace).
  exists w'. split; [exact Hrun | exact Htrace].
Defined.

(** ** Finalizing a program *)

Lemma decr_program (s : ContextStats.t) :
  ContextStats.decr s "program"
  = (Ok tt,
     ContextStats.setattr s "program"
       ((ContextStats.program s).1, (ContextStats.program s).2 + 1),
     []).
Proof.
  unfold ContextStats.decr. cbn [ContextStats.getattr String.eqb Ascii.eqb
    Bool.eqb]. by destruct (ContextStats.program s).
Qed.

(** X24: the finalizer of a program does nothing once the library has no
    current context.  Otherwise it detaches every shader, in order, deletes
    the program object and counts one more freed program on the context;
    the other counters and the rest of the context stay as they were. *)
Theorem delete_program (ctx : addr) (shaders_id : list Z) (prog_id : Z)
    (w : World) (c : ContextObj) :
  contexts w !! ctx = Some c →
  (current_context w = None →
   Program._delete ctx shaders_id prog_id w = (Ok tt, w)) ∧
  (current_context w ≠ None →
   ∃ w', Program._delete ctx shaders_id prog_id w = (Ok tt, w') ∧
     trace w' = trace w ++ (glDetachShader prog_id <$> shaders_id)
                ++ [glDeleteProgram prog_id] ∧
     contexts w' !! ctx
     = Some (with_stats
               (ContextStats.setattr (stats c) "program"
                  ((ContextStats.program (stats c)).1,
                   (ContextStats.program (stats c)).2 + 1))
               c)).
Proof.
  intros Hc. unfold Program._delete. split.
  - by intros ->.
  - destruct (current_context w) as [current |]; [intros _ | done].
    erewrite bind_ok by apply for_each_call.
    unfold mbind at 1, M_bind at 1, call at 1.
    unfold on_stats. erewrite bind_ok by (apply load_ok; exact Hc).
    rewrite decr_program.
    eexists. split; [reflexivity |]. cbn [trace contexts emit].
    split; [by rewrite <- app_assoc | apply lookup_insert_eq].
Qed.

Lemma delete_program_witness :
  contexts one_context_world !! 1%positive = Some fresh_context ∧
  ∃ w', Program._delete 1%positive [3; 4] 7 one_context_world = (Ok tt, w') ∧
    trace w' = [glDetachShader 7 3; glDetachShader 7 4; glDeleteProgram 7].
Proof.
  split; [reflexivity |].
  destruct (delete_program 1%positive [3; 4] 7 one_context_world fresh_context
              eq_refl) as [_ Hlive].
  destruct Hlive as (w' & Hrun & Htrace & _); [discriminate |].
  exists w'. split; [exact Hrun | exact Htrace].
Defined.

(** ** Introspection of uniforms *)




(** ** Names of array uniforms *)









